(** * IntelSeed: the packaging script [setup.py] and the RDSEED acquisition layer

    Part I embeds [setup.py]: the [CustomBuildPy.run] build step and the
    keyword arguments of the [setup(...)] call.  Python's effects (the file
    system, the working directory, standard output, child processes and
    exceptions) are threaded through an explicit state-and-exception monad.

    Part II models the native acquisition layer ([RdseedSource]) that the
    package wraps.  That library is not part of the source tree, so it is
    modelled from the specification. *)

From Stdlib Require Import ZArith Lia Ascii.
From stdpp Require Import base gmap strings list.

Local Open Scope string_scope.

(** ** Part I.a  The Python run-time the script touches *)

Module Py.

(** What [os.stat] reaches under a path, symbolic links followed. *)
Inductive Node : Type :=
| RegularFile (content : string)
| Directory.

(** The state of [sys.stdout], as far as [print] depends on it. *)
Inductive Stream : Type :=
| Open          (* the write succeeds *)
| Missing       (* sys.stdout is None: print returns without writing *)
| ClosedFile    (* the file object is closed: print raises ValueError *)
| Failing.      (* the write fails (broken pipe, full disk): OSError *)

(** The part of the process state that [setup.py] can observe or change.

    [fs] is the file system as [os.stat] sees it: it maps an absolute
    path to what [os.stat] reaches there once symbolic links are followed,
    and has no entry where [os.stat] fails, be it that nothing is there,
    that a link dangles or that a directory on the way cannot be
    searched. *)
Record World : Type := mkWorld {
  cwd        : string;                (* os.getcwd() *)
  fs         : gmap string Node;      (* absolute path -> os.stat *)
  stdout     : list string;           (* the lines written, one per print() *)
  children   : list (list string);    (* argv of every process launched *)
  sys_stdout : Stream;                (* whether stdout takes a write *)
}.

(** How a call ends: it returns a value or an exception propagates; the
    world it leaves behind is recorded in both cases. *)
Inductive Outcome (A : Type) : Type :=
| Returned (a : A) (w : World)
| Raised (exc : string) (w : World).
Arguments Returned {A} a w.
Arguments Raised {A} exc w.

Definition M (A : Type) : Type := World -> Outcome A.

Definition ret {A} (a : A) : M A := fun w => Returned a w.

Definition bind {A B} (m : M A) (k : A -> M B) : M B :=
  fun w =>
    match m w with
    | Returned a w' => k a w'
    | Raised e w' => Raised e w'
    end.

Definition world_of {A} (o : Outcome A) : World :=
  match o with
  | Returned _ w => w
  | Raised _ w => w
  end.

Definition returns_normally {A} (o : Outcome A) : bool :=
  match o with
  | Returned _ _ => true
  | Raised _ _ => false
  end.

(** [str.endswith("/")] *)
Fixpoint endswith_sep (s : string) : bool :=
  match s with
  | EmptyString => false
  | String c EmptyString => bool_decide (c = "/"%char)
  | String _ rest => endswith_sep rest
  end.

(** [str.startswith("/")] *)
Definition startswith_sep (s : string) : bool :=
  match s with
  | String c _ => bool_decide (c = "/"%char)
  | EmptyString => false
  end.

(** One iteration of the loop of [posixpath.join]. *)
Definition join_step (path b : string) : string :=
  if startswith_sep b then b
  else if bool_decide (path = "") || endswith_sep path then path +:+ b
  else path +:+ "/" +:+ b.

(** [os.path.join(a, *p)] on a POSIX system. *)
Definition os_path_join (a : string) (p : list string) : string :=
  fold_left join_step p a.

(** The file a path names: a relative path is resolved against the
    working directory. *)
Definition resolve (w : World) (path : string) : string :=
  os_path_join (cwd w) [path].

Definition exists_in (w : World) (path : string) : bool :=
  bool_decide (is_Some (fs w !! resolve w path)).

(** [os.path.exists(path)]: whether [os.stat(path)] succeeds.  It reads
    the file system, changes nothing, and answers [False] instead of
    raising when [os.stat] fails. *)
Definition os_path_exists (path : string) : M bool :=
  fun w => Returned (exists_in w path) w.

Definition printed (w : World) (line : string) : World :=
  {| cwd := cwd w; fs := fs w;
     stdout := stdout w ++ [line]; children := children w;
     sys_stdout := sys_stdout w |}.

(** [print(line)]: writes the line to [sys.stdout].  Nothing is written
    when [sys.stdout] is [None]; a closed stream raises [ValueError] and a
    failed write raises [OSError]. *)
Definition print (line : string) : M unit :=
  fun w =>
    match sys_stdout w with
    | Open => Returned tt (printed w line)
    | Missing => Returned tt w
    | ClosedFile => Raised "ValueError" w
    | Failing => Raised "OSError" w
    end.

(** [subprocess.run(argv)]: the one way the imported modules offer to
    launch an external program ([setup.py] imports [subprocess]). *)
Definition subprocess_run (argv : list string) : M unit :=
  fun w => Returned tt
    {| cwd := cwd w; fs := fs w;
       stdout := stdout w; children := children w ++ [argv];
       sys_stdout := sys_stdout w |}.

#[global] Instance M_ret : MRet M := @ret.
#[global] Instance M_bind : MBind M := fun A B k m => bind m k.

End Py.


(** ** Part I.b  [setup.py] *)

Module Setup.
Import Py.

Section build_py.

(** [build_py.run], the inherited build step that [CustomBuildPy.run]
    delegates to first.  It belongs to setuptools; nothing is assumed
    about it: it may print, write files, launch processes or raise. *)
Variable build_py_run : M unit.

(** [CustomBuildPy.run] *)
Definition run : M unit :=
  build_py_run;;
  let package_dir := "intel_seed" in
  let library_path := os_path_join package_dir ["librdseed.so"] in
  found ← os_path_exists library_path;
  if negb found then
    print ("Warning: " +:+ library_path +:+
           " not found. Make sure to compile it manually.")
  else
    print ("Found compiled library at " +:+ library_path).

(** A distutils command class: its name, its docstring and the [run]
    method that the build invokes. *)
Record CommandClass : Type := mkCommandClass {
  class_name : string;
  class_doc  : string;
  class_run  : M unit;
}.

(** [class CustomBuildPy(build_py)] *)
Definition CustomBuildPy : CommandClass :=
  {| class_name := "CustomBuildPy";
     class_doc := "Custom build command to compile the C library.";
     class_run := run |}.

(** The keyword arguments that [setup.py] hands to [setuptools.setup]. *)
Record SetupKeywords : Type := mkSetupKeywords {
  name                 : string;
  version              : string;
  description          : string;
  author               : string;
  author_email         : string;
  packages             : list string;
  package_data         : gmap string (list string);
  include_package_data : bool;
  cmdclass             : gmap string CommandClass;
  classifiers          : list string;
  python_requires      : string;
  install_requires     : list string;
  extras_require       : gmap string (list string);
}.

(** [find_packages()], evaluated by setuptools on the source tree. *)
Variable find_packages : list string.

(** The [setup(...)] call at the bottom of the script. *)
Definition setup_call : SetupKeywords :=
  {| name := "intel-seed";
     version := "1.0.0";
     description :=
       "Python module for Intel RDSEED hardware random number generation";
     author := "Thiago Jung";
     author_email := "thiagojm1984@hotmail.com";
     packages := find_packages;
     package_data := {[ "intel_seed" := ["librdseed.so"] ]};
     include_package_data := true;
     cmdclass := {[ "build_py" := CustomBuildPy ]};
     classifiers :=
       [ "Development Status :: 4 - Beta";
         "Intended Audience :: Developers";
         "License :: OSI Approved :: MIT License";
         "Programming Language :: Python :: 3";
         "Programming Language :: Python :: 3.8";
         "Programming Language :: Python :: 3.9";
         "Programming Language :: Python :: 3.10";
         "Programming Language :: Python :: 3.11";
         "Programming Language :: Python :: 3.12";
         "Topic :: Security :: Cryptography";
         "Topic :: Software Development :: Libraries :: Python Modules" ];
     python_requires := ">=3.8";
     install_requires := [];
     extras_require := {[ "dev" := ["pytest"; "black"; "flake8"] ]} |}.

End build_py.

(** The path the build step looks for, and its two messages. *)
Definition library_path : string := "intel_seed/librdseed.so".
Definition msg_missing : string :=
  "Warning: intel_seed/librdseed.so not found. Make sure to compile it manually.".
Definition msg_found : string :=
  "Found compiled library at intel_seed/librdseed.so".

(** The line that the verification prints in a given world. *)
Definition verdict (w : World) : string :=
  if exists_in w library_path then msg_found else msg_missing.

(** Sample surroundings used to exercise the build step. *)
Module Sample.

(** An inherited step that logs one line and returns. *)
Definition quiet_parent : M unit := print "running build_py".

(** An inherited step that returns without a word. *)
Definition silent_parent : M unit := mret tt.

(** An inherited step that fails. *)
Definition failing_parent : M unit :=
  fun w => Raised "DistutilsFileError" w.

(** Writing a regular file, as a compiler or a copy would. *)
Definition write_file (path content : string) : M unit :=
  fun w => Returned tt
    {| cwd := cwd w;
       fs := <[ resolve w path := RegularFile content ]> (fs w);
       stdout := stdout w; children := children w;
       sys_stdout := sys_stdout w |}.

(** An inherited step that compiles behind the scenes: it launches a
    compiler and leaves the library in the source tree. *)
Definition compiling_parent : M unit :=
  subprocess_run ["gcc"; "-shared"; "-o"; "intel_seed/librdseed.so"];;
  write_file "intel_seed/librdseed.so" "ELF".

(** A checkout under [/repo] that contains the compiled library. *)
Definition tree : gmap string Node :=
  {[ "/repo" := Directory;
     "/repo/setup.py" := RegularFile "setup(...)";
     "/repo/intel_seed" := Directory;
     "/repo/intel_seed/librdseed.so" := RegularFile "ELF" ]}.

(** The same checkout without the library. *)
Definition bare_tree : gmap string Node :=
  delete "/repo/intel_seed/librdseed.so" tree.

Definition at_dir (dir : string) (files : gmap string Node) : World :=
  {| cwd := dir; fs := files; stdout := []; children := [];
     sys_stdout := Open |}.

(** The same, in a process whose standard output has been closed. *)
Definition closed_at (dir : string) (files : gmap string Node) : World :=
  {| cwd := dir; fs := files; stdout := []; children := [];
     sys_stdout := ClosedFile |}.

(** The checkout with a directory where the library should be. *)
Definition odd_tree : gmap string Node :=
  <[ "/repo/intel_seed/librdseed.so" := Directory ]> tree.

End Sample.
End Setup.

(** ** Part II  The RDSEED acquisition layer *)

Module Rdseed.

(** Modelled from the spec: the operand widths of the hardware instruction,
    whose wrapper is missing from the source tree: "16, 32, or 64 bits". *)
Inductive Width : Type := W16 | W32 | W64.

Definition bits (w : Width) : Z :=
  match w with
  | W16 => 16
  | W32 => 32
  | W64 => 64
  end.

(** Modelled from the spec: [RandomWord], the native library's word type,
    which is missing from the source tree: "an unsigned integer of fixed
    bit-width (16, 32, or 64 bits), the direct output of one successful
    hardware draw". *)
Definition RandomWord : Type := Z.

(** Modelled from the spec: [AcquisitionResult], missing from the source
    tree: "a tagged outcome -- Success(RandomWord) or Exhausted". *)
Inductive AcquisitionResult : Type :=
| Success (word : RandomWord)
| Exhausted.

(** Modelled from the spec: what one issue of the instruction leaves
    behind, the wrapper being missing from the source tree: the "explicit
    per-call success/failure status" and the destination operand. *)
Record Reply : Type := mkReply {
  flag : bool;
  dest : Z;
}.

(** Modelled from the spec: the destination operand of the instruction
    (missing from the source tree) is "an unsigned integer of fixed
    bit-width": it holds the low [bits w] bits of what the entropy source
    delivers. *)
Definition operand (w : Width) (raw : Z) : Z :=
  Z.land raw (Z.ones (bits w)).

(** Modelled from the spec: the configuration of [RdseedSource], missing
    from the source tree; "retries up to a fixed bound ... the configured
    attempt cap". *)
Record RdseedSource : Type := mkRdseedSource {
  retry_bound : nat;
}.

(** Modelled from the spec: what a draw (missing from the source tree)
    hands back, an [AcquisitionResult], together with what it did to get it:
    the instructions it issued and the hardware state it leaves. *)
Record Draw (Cpu : Type) : Type := mkDraw {
  result   : AcquisitionResult;
  attempts : list Reply;        (* every issue of this draw, in order *)
  cpu      : Cpu;               (* the hardware state it leaves *)
}.
Arguments mkDraw {Cpu} result attempts cpu.
Arguments result {Cpu} d.
Arguments attempts {Cpu} d.
Arguments cpu {Cpu} d.

Section Source.

(** The hardware: a state that is not tracked by the library, and the
    behaviour of the entropy source on one issue at a given width: the
    status flag, the bits delivered, and the next state.  Nothing is
    assumed about it, so a stub or a mock is one instance. *)
Variable Cpu : Type.
Variable entropy : Width -> Cpu -> (bool * Z) * Cpu.

(** Modelled from the spec: one issue of "the hardware instruction at
    the given width", whose wrapper is missing from the source tree. *)
Definition rdseed (w : Width) (c : Cpu) : Reply * Cpu :=
  let '(cf, raw, c') := entropy w c in
  ({| flag := cf; dest := operand w raw |}, c').

(** Modelled from the spec: the retry loop of a draw, missing from the
    source tree: "issues the hardware instruction at the given width,
    checks the success flag, and retries up to a fixed bound"; "Exhausted
    when all retries fail". *)
Fixpoint acquire (w : Width) (budget : nat) (c : Cpu) : Draw Cpu :=
  match budget with
  | O => mkDraw Exhausted [] c
  | S budget' =>
      let (r, c') := rdseed w c in
      if flag r then mkDraw (Success (dest r)) [r] c'
      else
        let d := acquire w budget' c' in
        mkDraw (result d) (r :: attempts d) (cpu d)
  end.

(** Modelled from the spec: a draw at a given width, missing from the source
    tree; "each draw is a stateless ... operation bounded by its own retry
    loop". *)
Definition draw (src : RdseedSource) (w : Width) (c : Cpu) : Draw Cpu :=
  acquire w (retry_bound src) c.

(** Modelled from the spec: [draw16() -> AcquisitionResult], missing from
    the source tree. *)
Definition draw16 (src : RdseedSource) : Cpu -> Draw Cpu := draw src W16.

(** Modelled from the spec: [draw32() -> AcquisitionResult], missing from
    the source tree. *)
Definition draw32 (src : RdseedSource) : Cpu -> Draw Cpu := draw src W32.

(** Modelled from the spec: [draw64() -> AcquisitionResult], missing from
    the source tree. *)
Definition draw64 (src : RdseedSource) : Cpu -> Draw Cpu := draw src W64.

(** The hardware on its own: [n] consecutive issues starting in [c],
    whatever they report.  Used to say which issues a draw made. *)
Fixpoint issues (w : Width) (n : nat) (c : Cpu) : list Reply * Cpu :=
  match n with
  | O => ([], c)
  | S n' =>
      let (r, c') := rdseed w c in
      let (rs, c'') := issues w n' c' in
      (r :: rs, c'')
  end.

(** The instruction never reports success, as on a machine without it. *)
Definition always_fails (w : Width) : Prop :=
  forall c, flag (rdseed w c).1 = false.

End Source.

Arguments rdseed {Cpu} entropy w c.
Arguments acquire {Cpu} entropy w budget c.
Arguments draw {Cpu} entropy src w c.
Arguments draw16 {Cpu} entropy src _.
Arguments draw32 {Cpu} entropy src _.
Arguments draw64 {Cpu} entropy src _.
Arguments issues {Cpu} entropy w n c.
Arguments always_fails {Cpu} entropy w.

(** A draw [d] made at width [w] from state [c] is genuine when a word
    it returns is the destination operand of the last instruction issued
    by that very draw, that issue reported success, every earlier issue of
    the draw failed, and the issues of the draw are the consecutive
    issues of the hardware from [c] on. *)
Definition genuine {Cpu} (entropy : Width -> Cpu -> (bool * Z) * Cpu)
    (w : Width) (c : Cpu) (d : Draw Cpu) : Prop :=
  forall v, result d = Success v ->
    exists (earlier : list Reply) (last : Reply),
      attempts d = (earlier ++ [last])%list
      /\ Forall (fun r => flag r = false) earlier
      /\ flag last = true
      /\ dest last = v
      /\ issues entropy w (length (attempts d)) c = (attempts d, cpu d).

(** A returned word fits the width: it is an unsigned [bits w]-bit value. *)
Definition fits {Cpu} (w : Width) (d : Draw Cpu) : Prop :=
  forall v, result d = Success v -> (0 <= v < 2 ^ bits w)%Z.

(** A draw [d] respects the retry bound when it issued at most
    [retry_bound src] instructions, and, should the instruction never
    succeed, it reports [Exhausted] after exactly that many. *)
Definition bounded_retry {Cpu} (entropy : Width -> Cpu -> (bool * Z) * Cpu)
    (src : RdseedSource) (w : Width) (d : Draw Cpu) : Prop :=
  length (attempts d) <= retry_bound src
  /\ (always_fails entropy w ->
      result d = Exhausted /\ length (attempts d) = retry_bound src).

(** Test doubles for the instruction; the state counts the issues. *)
Module Mock.

(** A stub that never delivers. *)
Definition stub (_ : Width) (n : nat) : (bool * Z) * nat :=
  ((false, 0%Z), S n).

(** A mock that delivers on the issue numbered [k] (from 0) and fails
    otherwise; the bits it offers differ at every issue. *)
Definition succeed_at (k : nat) (_ : Width) (n : nat) : (bool * Z) * nat :=
  ((bool_decide (n = k), (1000 * Z.of_nat n + 7)%Z), S n).

(** A mock that always delivers, with all bits set well beyond 64. *)
Definition saturated (_ : Width) (n : nat) : (bool * Z) * nat :=
  ((true, (2 ^ 80 - 1)%Z), S n).

Definition ten_attempts : RdseedSource := {| retry_bound := 10 |}.

End Mock.
End Rdseed.

(** * Properties of the build step and of the [setup] call *)

Module SetupFacts.
Import Py Setup.

Section run_facts.

Variable build_py_run : M unit.
Variable find_packages : list string.

(** The path that [run] computes with [os.path.join]. *)
Lemma joined_library_path :
  os_path_join "intel_seed" ["librdseed.so"] = library_path.
Proof. reflexivity. Qed.

(** When the inherited step returns, what is left of [run] is one call of
    [print], on the line that the look-up selects. *)
Lemma run_after_parent w w1 :
  build_py_run w = Returned tt w1 ->
  run build_py_run w = print (verdict w1) w1.
Proof.
  intros Hparent. unfold run, verdict, mbind, M_bind, bind.
  rewrite Hparent. unfold os_path_exists.
  rewrite joined_library_path.
  destruct (exists_in w1 library_path); reflexivity.
Qed.

(** With a standard output that takes the write, the line is added. *)
Lemma run_after_parent_open w w1 :
  build_py_run w = Returned tt w1 ->
  sys_stdout w1 = Open ->
  run build_py_run w = Returned tt (printed w1 (verdict w1)).
Proof.
  intros Hparent Hopen. rewrite (run_after_parent _ _ Hparent).
  unfold print. now rewrite Hopen.
Qed.

(** When the inherited step raises, the exception propagates as is. *)
Lemma run_parent_raises w e w1 :
  build_py_run w = Raised e w1 ->
  run build_py_run w = Raised e w1.
Proof.
  intros Hparent. unfold run, mbind, M_bind, bind.
  now rewrite Hparent.
Qed.

(** [print] leaves the world as it is or adds its line, nothing else. *)
Lemma print_world line w :
  world_of (print line w) = w \/ world_of (print line w) = printed w line.
Proof. unfold print. destruct (sys_stdout w); auto. Qed.

(** Whether [print] returns is decided by the state of standard output. *)
Lemma print_returns line w :
  returns_normally (print line w) =
    match sys_stdout w with
    | Open | Missing => true
    | ClosedFile | Failing => false
    end.
Proof. unfold print. now destruct (sys_stdout w). Qed.

(** In every case the world after [run] is the world after the
    inherited step, up to the printed line. *)
Lemma run_world w :
  world_of (run build_py_run w) = world_of (build_py_run w) \/
  world_of (run build_py_run w) =
    printed (world_of (build_py_run w)) (verdict (world_of (build_py_run w))).
Proof.
  destruct (build_py_run w) as [[] w1 | e w1] eqn:Hparent.
  - rewrite (run_after_parent _ _ Hparent). apply print_world.
  - left. now rewrite (run_parent_raises _ _ _ Hparent).
Qed.

(** A failing inherited step: the verification is never reached. *)
Example run_with_failing_parent :
  run Sample.failing_parent (Sample.at_dir "/repo" Sample.tree) =
    Raised "DistutilsFileError" (Sample.at_dir "/repo" Sample.tree).
Proof. reflexivity. Qed.

(** Only the inherited step can make the library appear: here it compiles
    it, and the verification that follows finds it. *)
Example run_with_compiling_parent :
  let w := Sample.at_dir "/repo" Sample.bare_tree in
  exists_in w library_path = false
  /\ stdout (world_of (run Sample.compiling_parent w)) = [msg_found]
  /\ children (world_of (run Sample.compiling_parent w)) =
       [["gcc"; "-shared"; "-o"; "intel_seed/librdseed.so"]].
Proof. vm_compute. auto. Qed.

(** C1.  The build step only verifies the compiled artifact: after the
    inherited [build_py.run] (whose exception, if any, propagates
    unchanged), [run] looks up [intel_seed/librdseed.so] and prints one of
    two messages accordingly: on a standard output that takes the write,
    exactly that line is added to what was written before; when
    [sys.stdout] is [None] nothing is written; on a closed or failing
    stream the exception of [print] propagates and nothing is written.  It
    compiles nothing and launches no external process: the list of launched
    processes, the file system and the working directory are exactly those
    the inherited step left. *)
Theorem run_only_verifies_artifact (w : World) :
  match build_py_run w with
  | Raised e w1 => run build_py_run w = Raised e w1
  | Returned _ w1 =>
      let line :=
        if exists_in w1 "intel_seed/librdseed.so"
        then "Found compiled library at intel_seed/librdseed.so"
        else "Warning: intel_seed/librdseed.so not found. Make sure to compile it manually." in
      let final := world_of (run build_py_run w) in
      match sys_stdout w1 with
      | Open =>
          returns_normally (run build_py_run w) = true
          /\ stdout final = (stdout w1 ++ [line])%list
      | Missing =>
          returns_normally (run build_py_run w) = true
          /\ stdout final = stdout w1
      | ClosedFile => run build_py_run w = Raised "ValueError" w1
      | Failing => run build_py_run w = Raised "OSError" w1
      end
      /\ children final = children w1
      /\ fs final = fs w1
      /\ cwd final = cwd w1
      /\ sys_stdout final = sys_stdout w1
  end.
Proof.
  destruct (build_py_run w) as [[] w1 | e w1] eqn:Hparent.
  - rewrite (run_after_parent _ _ Hparent). unfold verdict, print.
    change library_path with "intel_seed/librdseed.so".
    destruct (sys_stdout w1) eqn:Hout; cbn; rewrite ?Hout; auto.
  - exact (run_parent_raises _ _ _ Hparent).
Qed.

(** C2 (as amended).  When [intel_seed/librdseed.so] is missing once the
    inherited step has returned and standard output takes the write, [run]
    adds the warning to the output, changes nothing else and returns
    normally; and whether [run] returns or raises after the inherited step
    is decided by the state of standard output alone, so it is the same
    with the library missing as with the library present. *)
Theorem missing_library_only_warns (w w1 : World) :
  build_py_run w = Returned tt w1 ->
  exists_in w1 "intel_seed/librdseed.so" = false ->
  sys_stdout w1 = Open ->
  run build_py_run w =
    Returned tt
      {| cwd := cwd w1; fs := fs w1;
         stdout := stdout w1 ++
           ["Warning: intel_seed/librdseed.so not found. Make sure to compile it manually."];
         children := children w1; sys_stdout := Open |}
  /\ (forall wa wb wa1 wb1,
        build_py_run wa = Returned tt wa1 ->
        build_py_run wb = Returned tt wb1 ->
        sys_stdout wa1 = sys_stdout wb1 ->
        returns_normally (run build_py_run wa) =
          returns_normally (run build_py_run wb)).
Proof.
  intros Hparent Hmissing Hopen. split.
  - rewrite (run_after_parent_open _ _ Hparent Hopen). unfold verdict.
    change library_path with "intel_seed/librdseed.so".
    rewrite Hmissing. unfold printed. now rewrite Hopen.
  - intros wa wb wa1 wb1 Ha Hb Hsame.
    rewrite (run_after_parent _ _ Ha), (run_after_parent _ _ Hb).
    rewrite !print_returns. now rewrite Hsame.
Qed.

(** C3.  The [setup] call declares the name "intel-seed", the version
    "1.0.0", [librdseed.so] as the only package data, of the package
    [intel_seed], [python_requires] ">=3.8", no install requirement, and
    [CustomBuildPy], whose [run] is the build step above, as the only
    overridden command, [build_py]. *)
Theorem setup_declares_metadata :
  let kw := setup_call build_py_run find_packages in
  name kw = "intel-seed"
  /\ version kw = "1.0.0"
  /\ package_data kw !! "intel_seed" = Some ["librdseed.so"]
  /\ dom (package_data kw) = {[ "intel_seed" ]}
  /\ python_requires kw = ">=3.8"
  /\ install_requires kw = []
  /\ cmdclass kw !! "build_py" = Some (CustomBuildPy build_py_run)
  /\ dom (cmdclass kw) = {[ "build_py" ]}
  /\ class_run (CustomBuildPy build_py_run) = run build_py_run.
Proof.
  cbn. repeat apply conj;
    first [ apply lookup_singleton_eq | apply dom_singleton_L
          | reflexivity ].
Qed.

(** C9.  The verification is read-only: the file system and the working
    directory after [run] are those the inherited step left, so a
    library that is absent when the verification starts is absent when
    [run] completes; and when the inherited step itself leaves the file
    system and the working directory alone, a library absent before
    [run] is absent after it. *)
Theorem run_verification_read_only (w : World) :
  let mid := world_of (build_py_run w) in
  let final := world_of (run build_py_run w) in
  fs final = fs mid
  /\ cwd final = cwd mid
  /\ (exists_in mid "intel_seed/librdseed.so" = false ->
      exists_in final "intel_seed/librdseed.so" = false)
  /\ (fs mid = fs w -> cwd mid = cwd w ->
      exists_in w "intel_seed/librdseed.so" = false ->
      exists_in final "intel_seed/librdseed.so" = false).
Proof.
  intros mid final.
  assert (Hfs : fs final = fs mid /\ cwd final = cwd mid).
  { subst mid final. destruct (run_world w) as [-> | ->]; auto. }
  destruct Hfs as [Hfs Hcwd].
  assert (Hex : forall v1 v2 : World, fs v1 = fs v2 -> cwd v1 = cwd v2 ->
            forall p, exists_in v1 p = exists_in v2 p).
  { intros v1 v2 H1 H2 p. unfold exists_in, resolve. now rewrite H1, H2. }
  repeat split; try assumption.
  - intros Hm. now rewrite (Hex final mid Hfs Hcwd).
  - intros H1 H2 Hw. rewrite (Hex final mid Hfs Hcwd).
    now rewrite (Hex mid w H1 H2).
Qed.

(** C10.  The verification depends only on whether the relative path
    resolves to an existing entry from the working directory.  Take two
    runs whose inherited steps return with standard output in the same
    state.  If the two worlds agree on whether the path exists, both runs
    add the same lines to the output, the one line that the look-up
    selects when the stream is open and none otherwise, and both end the
    same way.  And with one and the same tree and an open stream, the run
    from [/repo] adds the found message where the run from [/tmp] adds the
    warning. *)
Theorem run_depends_only_on_resolved_path (wa wb wa1 wb1 : World) :
  build_py_run wa = Returned tt wa1 ->
  build_py_run wb = Returned tt wb1 ->
  sys_stdout wa1 = sys_stdout wb1 ->
  (exists_in wa1 "intel_seed/librdseed.so" =
     exists_in wb1 "intel_seed/librdseed.so" ->
   let new :=
     match sys_stdout wa1 with
     | Open =>
         [if exists_in wa1 "intel_seed/librdseed.so"
          then "Found compiled library at intel_seed/librdseed.so"
          else "Warning: intel_seed/librdseed.so not found. Make sure to compile it manually."]
     | _ => []
     end in
   stdout (world_of (run build_py_run wa)) = (stdout wa1 ++ new)%list
   /\ stdout (world_of (run build_py_run wb)) = (stdout wb1 ++ new)%list
   /\ returns_normally (run build_py_run wa) =
        returns_normally (run build_py_run wb))
  /\ (sys_stdout wa1 = Open ->
      fs wa1 = Sample.tree -> fs wb1 = Sample.tree ->
      cwd wa1 = "/repo" -> cwd wb1 = "/tmp" ->
      stdout (world_of (run build_py_run wa)) =
        (stdout wa1 ++
           ["Found compiled library at intel_seed/librdseed.so"])%list
      /\ stdout (world_of (run build_py_run wb)) =
        (stdout wb1 ++
           ["Warning: intel_seed/librdseed.so not found. Make sure to compile it manually."])%list).
Proof.
  intros Ha Hb Hsame.
  rewrite (run_after_parent _ _ Ha), (run_after_parent _ _ Hb).
  unfold verdict. change library_path with "intel_seed/librdseed.so".
  split.
  - intros Hagree. rewrite <- Hagree. unfold print. rewrite <- Hsame.
    destruct (sys_stdout wa1); cbn; rewrite ?app_nil_r; auto.
  - intros Hopen Hfa Hfb Hca Hcb.
    assert (Hin : exists_in wa1 "intel_seed/librdseed.so" = true).
    { unfold exists_in, resolve. rewrite Hfa, Hca. now vm_compute. }
    assert (Hout : exists_in wb1 "intel_seed/librdseed.so" = false).
    { unfold exists_in, resolve. rewrite Hfb, Hcb. now vm_compute. }
    rewrite Hin, Hout. unfold print. rewrite <- Hsame, Hopen. auto.
Qed.

End run_facts.

(** The claim C2 as first written promises a normal return for every
    state in which the library is missing.  Here the inherited step has
    returned, the library is missing, and standard output is closed: the
    [print] of the warning raises and so does [run]. *)
Lemma missing_library_can_raise :
  (Sample.silent_parent (Sample.closed_at "/repo" Sample.bare_tree) =
     Returned tt (Sample.closed_at "/repo" Sample.bare_tree)
   /\ exists_in (Sample.closed_at "/repo" Sample.bare_tree)
        "intel_seed/librdseed.so" = false
   /\ run Sample.silent_parent (Sample.closed_at "/repo" Sample.bare_tree) =
        Raised "ValueError" (Sample.closed_at "/repo" Sample.bare_tree))
  /\ ~ (forall (build_py_run : M unit) (w w1 : World),
          build_py_run w = Returned tt w1 ->
          exists_in w1 "intel_seed/librdseed.so" = false ->
          returns_normally (run build_py_run w) = true).
Proof.
  assert (Hmissing : exists_in (Sample.closed_at "/repo" Sample.bare_tree)
                       "intel_seed/librdseed.so" = false)
    by (vm_compute; reflexivity).
  split.
  - split; [reflexivity | split; [exact Hmissing | reflexivity]].
  - intros Hclaim.
    specialize (Hclaim Sample.silent_parent
                  (Sample.closed_at "/repo" Sample.bare_tree)
                  (Sample.closed_at "/repo" Sample.bare_tree)
                  eq_refl Hmissing).
    discriminate Hclaim.
Qed.

(** The theorems above at the sample checkout, with an inherited step
    that only logs. *)

Lemma missing_library_only_warns_witness :
  let w := Sample.at_dir "/repo" Sample.bare_tree in
  Sample.quiet_parent w = Returned tt (printed w "running build_py")
  /\ exists_in (printed w "running build_py") "intel_seed/librdseed.so" = false
  /\ stdout (world_of (run Sample.quiet_parent w)) =
       ["running build_py";
        "Warning: intel_seed/librdseed.so not found. Make sure to compile it manually."]
  /\ returns_normally (run Sample.quiet_parent w) = true.
Proof.
  intros w.
  pose (w1 := printed w "running build_py").
  assert (Hparent : Sample.quiet_parent w = Returned tt w1) by reflexivity.
  assert (Hmissing : exists_in w1 "intel_seed/librdseed.so" = false)
    by (vm_compute; reflexivity).
  split; [exact Hparent | split; [exact Hmissing |]].
  destruct (missing_library_only_warns Sample.quiet_parent w w1
              Hparent Hmissing eq_refl) as [Hrun _].
  rewrite Hrun. split; reflexivity.
Defined.

Lemma run_verification_read_only_witness :
  let w := Sample.at_dir "/repo" Sample.bare_tree in
  exists_in w "intel_seed/librdseed.so" = false
  /\ exists_in (world_of (run Sample.quiet_parent w))
       "intel_seed/librdseed.so" = false.
Proof.
  intros w.
  assert (Hbefore : exists_in w "intel_seed/librdseed.so" = false)
    by (vm_compute; reflexivity).
  split; [exact Hbefore |].
  destruct (run_verification_read_only Sample.quiet_parent w)
    as (_ & _ & _ & Hframe).
  apply Hframe; [reflexivity | reflexivity | exact Hbefore].
Defined.

Lemma run_depends_only_on_resolved_path_witness :
  let wa := Sample.at_dir "/repo" Sample.tree in
  let wb := Sample.at_dir "/tmp" Sample.tree in
  stdout (world_of (run Sample.quiet_parent wa)) =
    ["running build_py"; "Found compiled library at intel_seed/librdseed.so"]
  /\ stdout (world_of (run Sample.quiet_parent wb)) =
    ["running build_py";
     "Warning: intel_seed/librdseed.so not found. Make sure to compile it manually."].
Proof.
  intros wa wb.
  destruct (run_depends_only_on_resolved_path Sample.quiet_parent
              wa wb (printed wa "running build_py")
              (printed wb "running build_py") eq_refl eq_refl eq_refl)
    as [_ Hdirs].
  apply Hdirs; reflexivity.
Defined.

End SetupFacts.

(** * Properties of the acquisition layer *)

Module RdseedFacts.
Import Rdseed.

Lemma operand_range (w : Width) (raw : Z) :
  (0 <= operand w raw < 2 ^ bits w)%Z.
Proof.
  unfold operand. rewrite Z.land_ones by (destruct w; cbn; lia).
  apply Z.mod_pos_bound. destruct w; reflexivity.
Qed.

Section acquire_facts.

Context {Cpu : Type}.
Variable entropy : Width -> Cpu -> (bool * Z) * Cpu.

Lemma rdseed_dest_range w c :
  (0 <= dest (rdseed entropy w c).1 < 2 ^ bits w)%Z.
Proof.
  unfold rdseed. destruct (entropy w c) as [[cf raw] c'].
  apply operand_range.
Qed.

(** The loop never issues more than its budget. *)
Lemma acquire_attempts_le w budget c :
  length (attempts (acquire entropy w budget c)) <= budget.
Proof.
  revert c. induction budget as [| budget IH]; intros c; cbn.
  - lia.
  - destruct (rdseed entropy w c) as [r c'].
    destruct (flag r); cbn; [lia |].
    specialize (IH c'). lia.
Qed.

(** The issues of the loop are the consecutive issues of the hardware. *)
Lemma acquire_issues w budget c :
  issues entropy w (length (attempts (acquire entropy w budget c))) c =
    (attempts (acquire entropy w budget c),
     cpu (acquire entropy w budget c)).
Proof.
  revert c. induction budget as [| budget IH]; intros c; cbn.
  - reflexivity.
  - destruct (rdseed entropy w c) as [r c'] eqn:Hr.
    destruct (flag r); cbn; rewrite Hr.
    + reflexivity.
    + now rewrite IH.
Qed.

(** A returned word comes from the last issue, the only successful one. *)
Lemma acquire_success w budget c v :
  result (acquire entropy w budget c) = Success v ->
  exists (earlier : list Reply) (last : Reply),
    attempts (acquire entropy w budget c) = (earlier ++ [last])%list
    /\ Forall (fun r => flag r = false) earlier
    /\ flag last = true
    /\ dest last = v.
Proof.
  revert c. induction budget as [| budget IH]; intros c; cbn.
  - discriminate.
  - destruct (rdseed entropy w c) as [r c'].
    destruct (flag r) eqn:Hflag; cbn.
    + intros [= <-]. exists [], r. auto.
    + intros Hres. destruct (IH c' Hres) as (earlier & last & -> & ? & ? & ?).
      exists (r :: earlier), last. repeat split; auto.
Qed.

(** Every word the loop returns fits the width. *)
Lemma acquire_fits w budget c v :
  result (acquire entropy w budget c) = Success v ->
  (0 <= v < 2 ^ bits w)%Z.
Proof.
  revert c. induction budget as [| budget IH]; intros c; cbn.
  - discriminate.
  - pose proof (rdseed_dest_range w c) as Hrange.
    destruct (rdseed entropy w c) as [r c'].
    destruct (flag r); cbn.
    + intros [= <-]. exact Hrange.
    + apply IH.
Qed.

(** When no issue succeeds the loop uses up its budget. *)
Lemma acquire_always_fails w budget c :
  always_fails entropy w ->
  result (acquire entropy w budget c) = Exhausted
  /\ length (attempts (acquire entropy w budget c)) = budget
  /\ Forall (fun r => flag r = false)
           (attempts (acquire entropy w budget c)).
Proof.
  intros Hfail. revert c.
  induction budget as [| budget IH]; intros c; cbn.
  - auto.
  - pose proof (Hfail c) as Hc.
    destruct (rdseed entropy w c) as [r c']. cbn in Hc. rewrite Hc. cbn.
    destruct (IH c') as (-> & -> & Hall). auto.
Qed.

Lemma acquire_genuine w budget c :
  genuine entropy w c (acquire entropy w budget c).
Proof.
  intros v Hres.
  destruct (acquire_success _ _ _ _ Hres) as (earlier & last & Hlog & ? & ? & ?).
  exists earlier, last. repeat split; auto. apply acquire_issues.
Qed.

(** C4.  When the instruction always reports failure, [draw64] returns
    [Exhausted] after exactly [retry_bound] attempts: its attempts are
    the first [retry_bound] issues of the hardware, no fewer and no
    more. *)
Theorem draw64_exhausts_after_exactly_the_bound src c :
  always_fails entropy W64 ->
  result (draw64 entropy src c) = Exhausted
  /\ length (attempts (draw64 entropy src c)) = retry_bound src
  /\ issues entropy W64 (retry_bound src) c =
       (attempts (draw64 entropy src c), cpu (draw64 entropy src c)).
Proof.
  intros Hfail. unfold draw64, draw.
  destruct (acquire_always_fails W64 (retry_bound src) c Hfail)
    as (Hres & Hlen & _).
  repeat split; try assumption.
  rewrite <- Hlen at 1. apply acquire_issues.
Qed.

(** C5.  For each of [draw16], [draw32] and [draw64], a word is returned
    only if the instruction reported success in that very draw: the
    word is the destination operand of the last instruction the draw
    issued, that issue succeeded, all earlier issues of the draw failed,
    and the draw's issues are the hardware's consecutive issues from the
    state in which the draw began, so nothing is carried over from an
    earlier draw. *)
Theorem draws_return_only_fresh_words src c :
  genuine entropy W16 c (draw16 entropy src c)
  /\ genuine entropy W32 c (draw32 entropy src c)
  /\ genuine entropy W64 c (draw64 entropy src c).
Proof. split; [| split]; apply acquire_genuine. Qed.

(** C6.  For each width, a word returned by a successful draw lies in
    [0, 2^W): below [2^16] for [draw16], [2^32] for [draw32] and [2^64]
    for [draw64], and never negative. *)
Theorem successful_draws_fit_width src c :
  fits W16 (draw16 entropy src c)
  /\ fits W32 (draw32 entropy src c)
  /\ fits W64 (draw64 entropy src c).
Proof. split; [| split]; intros v; apply acquire_fits. Qed.

(** C7.  Every draw returns, whatever the instruction does: it issues at
    most [retry_bound] instructions, and when every issue fails, as on
    hardware without the instruction, it returns [Exhausted] after
    exactly [retry_bound] of them. *)
Theorem draws_are_bounded src c :
  (exists d16 d32 d64,
     draw16 entropy src c = d16 /\ draw32 entropy src c = d32 /\
     draw64 entropy src c = d64)
  /\ bounded_retry entropy src W16 (draw16 entropy src c)
  /\ bounded_retry entropy src W32 (draw32 entropy src c)
  /\ bounded_retry entropy src W64 (draw64 entropy src c).
Proof.
  split; [do 3 eexists; split; [| split]; reflexivity |].
  split; [| split]; (split; [apply acquire_attempts_le |]);
    intros Hfail;
    destruct (acquire_always_fails _ (retry_bound src) c Hfail)
      as (Hres & Hlen & _); auto.
Qed.

(** C8.  With a budget of 10 attempts, when the instruction fails twice
    and then succeeds, [draw32] returns [Success] with the value of that
    third issue, after the three issues and no other. *)
Theorem draw32_succeeds_on_third_attempt src c0 c1 c2 c3 r1 r2 r3 :
  retry_bound src = 10 ->
  rdseed entropy W32 c0 = (r1, c1) -> flag r1 = false ->
  rdseed entropy W32 c1 = (r2, c2) -> flag r2 = false ->
  rdseed entropy W32 c2 = (r3, c3) -> flag r3 = true ->
  draw32 entropy src c0 = mkDraw (Success (dest r3)) [r1; r2; r3] c3
  /\ length (attempts (draw32 entropy src c0)) <= 3.
Proof.
  intros Hbound H1 F1 H2 F2 H3 F3.
  assert (Hdraw : draw32 entropy src c0 =
                  mkDraw (Success (dest r3)) [r1; r2; r3] c3).
  { unfold draw32, draw. rewrite Hbound. cbn.
    rewrite H1, F1, H2, F2, H3, F3. reflexivity. }
  split; [exact Hdraw |]. rewrite Hdraw. cbn. lia.
Qed.

End acquire_facts.

(** The theorems above on the test doubles. *)

Lemma stub_always_fails w : always_fails Mock.stub w.
Proof. intros c. reflexivity. Qed.

Lemma draw64_exhausts_after_exactly_the_bound_witness :
  always_fails Mock.stub W64
  /\ result (draw64 Mock.stub Mock.ten_attempts 0) = Exhausted
  /\ length (attempts (draw64 Mock.stub Mock.ten_attempts 0)) = 10.
Proof.
  split; [exact (stub_always_fails W64) |].
  destruct (draw64_exhausts_after_exactly_the_bound
              Mock.stub Mock.ten_attempts 0 (stub_always_fails W64))
    as (Hres & Hlen & _).
  split; [exact Hres | exact Hlen].
Defined.

Lemma draws_return_only_fresh_words_witness :
  result (draw32 (Mock.succeed_at 2) Mock.ten_attempts 0) = Success 2007%Z
  /\ exists (earlier : list Reply) (last : Reply),
       attempts (draw32 (Mock.succeed_at 2) Mock.ten_attempts 0) =
         (earlier ++ [last])%list
       /\ Forall (fun r => flag r = false) earlier
       /\ flag last = true
       /\ dest last = 2007%Z
       /\ issues (Mock.succeed_at 2) W32
            (length (attempts (draw32 (Mock.succeed_at 2) Mock.ten_attempts 0))) 0 =
          (attempts (draw32 (Mock.succeed_at 2) Mock.ten_attempts 0),
           cpu (draw32 (Mock.succeed_at 2) Mock.ten_attempts 0)).
Proof.
  assert (Hres : result (draw32 (Mock.succeed_at 2) Mock.ten_attempts 0)
                 = Success 2007%Z) by (vm_compute; reflexivity).
  split; [exact Hres |].
  destruct (draws_return_only_fresh_words
              (Mock.succeed_at 2) Mock.ten_attempts 0) as (_ & H32 & _).
  exact (H32 2007%Z Hres).
Defined.

Lemma successful_draws_fit_width_witness :
  result (draw16 Mock.saturated Mock.ten_attempts 0) = Success 65535%Z
  /\ (0 <= 65535 < 2 ^ 16)%Z.
Proof.
  assert (Hres : result (draw16 Mock.saturated Mock.ten_attempts 0)
                 = Success 65535%Z) by (vm_compute; reflexivity).
  split; [exact Hres |].
  destruct (successful_draws_fit_width
              Mock.saturated Mock.ten_attempts 0) as (H16 & _).
  exact (H16 65535%Z Hres).
Defined.

Lemma draws_are_bounded_witness :
  always_fails Mock.stub W16
  /\ result (draw16 Mock.stub Mock.ten_attempts 0) = Exhausted
  /\ length (attempts (draw16 Mock.stub Mock.ten_attempts 0)) = 10.
Proof.
  split; [exact (stub_always_fails W16) |].
  destruct (draws_are_bounded Mock.stub Mock.ten_attempts 0)
    as (_ & (_ & H16) & _).
  exact (H16 (stub_always_fails W16)).
Defined.

Lemma draw32_succeeds_on_third_attempt_witness :
  draw32 (Mock.succeed_at 2) Mock.ten_attempts 0 =
    mkDraw (Success 2007%Z)
      [mkReply false 7; mkReply false 1007; mkReply true 2007] 3
  /\ length (attempts (draw32 (Mock.succeed_at 2) Mock.ten_attempts 0)) <= 3.
Proof.
  exact (draw32_succeeds_on_third_attempt (Mock.succeed_at 2)
           Mock.ten_attempts 0 1 2 3
           (mkReply false 7) (mkReply false 1007) (mkReply true 2007)
           eq_refl eq_refl eq_refl eq_refl eq_refl eq_refl eq_refl).
Defined.

End RdseedFacts.

(** * Further properties of the build step *)

Module SetupMore.
Import Py Setup.

Section more_run_facts.

Variable build_py_run : M unit.
Variable find_packages : list string.

(** The two messages cannot be confused. *)
Lemma messages_differ : msg_found <> msg_missing.
Proof. discriminate. Qed.


(** With an open standard output, the output after [run] is the output
    after the inherited step followed by the selected line. *)
Lemma run_stdout_open w w1 :
  build_py_run w = Returned tt w1 ->
  sys_stdout w1 = Open ->
  stdout (world_of (run build_py_run w)) =
    (stdout w1 ++ [verdict w1])%list.
Proof.
  intros Hparent Hopen.
  now rewrite (SetupFacts.run_after_parent_open _ _ _ Hparent Hopen).
Qed.


(** X2.  The verification asks only whether [os.stat] succeeds and never
    looks at what it found: once the inherited step has returned with an
    open standard output, a directory or a regular file of any content
    under the resolved library path makes [run] add the found message. *)
Theorem run_accepts_any_entry (w w1 : World) (node : Node) :
  build_py_run w = Returned tt w1 ->
  sys_stdout w1 = Open ->
  fs w1 !! resolve w1 "intel_seed/librdseed.so" = Some node ->
  returns_normally (run build_py_run w) = true
  /\ stdout (world_of (run build_py_run w)) =
       (stdout w1 ++
          ["Found compiled library at intel_seed/librdseed.so"])%list.
Proof.
  intros Hparent Hopen Hnode.
  assert (Hv : verdict w1 = msg_found).
  { unfold verdict, exists_in.
    change library_path with "intel_seed/librdseed.so".
    rewrite Hnode. now rewrite bool_decide_eq_true_2. }
  split.
  - now rewrite (SetupFacts.run_after_parent_open _ _ _ Hparent Hopen).
  - rewrite (run_stdout_open _ _ Hparent Hopen). now rewrite Hv.
Qed.

(** X3.  The last line of output tells the two cases apart: after a run
    whose inherited step returned with an open standard output, it is the
    found message exactly when the library existed at that point, and the
    warning exactly when it did not. *)
Theorem run_last_line_is_faithful (w w1 : World) :
  build_py_run w = Returned tt w1 ->
  sys_stdout w1 = Open ->
  (last (stdout (world_of (run build_py_run w))) = Some msg_found <->
     exists_in w1 "intel_seed/librdseed.so" = true)
  /\ (last (stdout (world_of (run build_py_run w))) = Some msg_missing <->
       exists_in w1 "intel_seed/librdseed.so" = false).
Proof.
  intros Hparent Hopen.
  rewrite (run_stdout_open _ _ Hparent Hopen).
  rewrite last_snoc. unfold verdict.
  change library_path with "intel_seed/librdseed.so".
  destruct (exists_in w1 "intel_seed/librdseed.so");
    (split; split; intros H; try reflexivity; try discriminate H;
     injection H as H; discriminate H).
Qed.

(** X4.  The verification is repeatable: when the build step runs twice,
    standard output is open both times, and the second inherited step
    returns without touching the file system or the working directory,
    the second run prints the same line as the first. *)
Theorem run_twice_same_verdict (w w1 w2 : World) :
  build_py_run w = Returned tt w1 ->
  sys_stdout w1 = Open ->
  build_py_run (printed w1 (verdict w1)) = Returned tt w2 ->
  sys_stdout w2 = Open ->
  fs w2 = fs w1 -> cwd w2 = cwd w1 ->
  (run build_py_run;; run build_py_run) w =
    Returned tt (printed w2 (verdict w1))
  /\ last (stdout (world_of ((run build_py_run;; run build_py_run) w))) =
       last (stdout (world_of (run build_py_run w))).
Proof.
  intros H1 Ho1 H2 Ho2 Hfs Hcwd.
  assert (Hv : verdict w2 = verdict w1).
  { unfold verdict, exists_in, resolve. now rewrite Hfs, Hcwd. }
  assert (Htwice : (run build_py_run;; run build_py_run) w =
                   Returned tt (printed w2 (verdict w1))).
  { unfold mbind, M_bind, bind.
    rewrite (SetupFacts.run_after_parent_open _ _ _ H1 Ho1).
    rewrite (SetupFacts.run_after_parent_open _ _ _ H2 Ho2).
    now rewrite Hv. }
  split; [exact Htwice |].
  rewrite Htwice, (SetupFacts.run_after_parent_open _ _ _ H1 Ho1). cbn.
  now rewrite !last_snoc.
Qed.

(** X5.  The build step verifies what the distribution ships: for every
    file that the [setup] call declares as package data, the line that
    [run] adds to an open standard output reports whether that file,
    joined to its package directory, exists. *)
Theorem package_data_is_what_run_verifies (pkg file : string)
    (files : list string) (w w1 : World) :
  package_data (setup_call build_py_run find_packages) !! pkg = Some files ->
  file ∈ files ->
  build_py_run w = Returned tt w1 ->
  sys_stdout w1 = Open ->
  stdout (world_of (run build_py_run w)) =
    (stdout w1 ++
       [if exists_in w1 (os_path_join pkg [file])
        then "Found compiled library at intel_seed/librdseed.so"
        else "Warning: intel_seed/librdseed.so not found. Make sure to compile it manually."])%list.
Proof.
  cbn. intros Hpkg Hfile Hparent Hopen.
  apply lookup_singleton_Some in Hpkg as [<- <-].
  apply list_elem_of_singleton in Hfile as ->.
  exact (run_stdout_open _ _ Hparent Hopen).
Qed.

End more_run_facts.

(** The theorems above at the sample checkout. *)


Lemma run_accepts_any_entry_witness :
  let w := Sample.at_dir "/repo" Sample.odd_tree in
  fs w !! resolve w "intel_seed/librdseed.so" = Some Directory
  /\ returns_normally (run Sample.quiet_parent w) = true
  /\ stdout (world_of (run Sample.quiet_parent w)) =
       ["running build_py";
        "Found compiled library at intel_seed/librdseed.so"].
Proof.
  intros w.
  assert (Hdir : fs w !! resolve w "intel_seed/librdseed.so" = Some Directory)
    by (vm_compute; reflexivity).
  split; [exact Hdir |].
  exact (run_accepts_any_entry Sample.quiet_parent w
           (printed w "running build_py") Directory eq_refl eq_refl Hdir).
Defined.

Lemma run_last_line_is_faithful_witness :
  let w := Sample.at_dir "/tmp" Sample.tree in
  let w1 := printed w "running build_py" in
  last (stdout (world_of (run Sample.quiet_parent w))) = Some msg_missing
  /\ exists_in w1 "intel_seed/librdseed.so" = false.
Proof.
  intros w w1.
  assert (Hout : exists_in w1 "intel_seed/librdseed.so" = false)
    by (vm_compute; reflexivity).
  split; [| exact Hout].
  destruct (run_last_line_is_faithful Sample.quiet_parent w w1
              eq_refl eq_refl) as [_ [_ Hback]].
  exact (Hback Hout).
Defined.

Lemma run_twice_same_verdict_witness :
  let w := Sample.at_dir "/repo" Sample.bare_tree in
  stdout (world_of ((run Sample.quiet_parent;; run Sample.quiet_parent) w)) =
    ["running build_py"; msg_missing; "running build_py"; msg_missing].
Proof.
  intros w.
  pose (w1 := printed w "running build_py").
  pose (w2 := printed (printed w1 (verdict w1)) "running build_py").
  destruct (run_twice_same_verdict Sample.quiet_parent w w1 w2
              eq_refl eq_refl eq_refl eq_refl eq_refl eq_refl)
    as [Htwice _].
  rewrite Htwice. vm_compute. reflexivity.
Defined.

Lemma package_data_is_what_run_verifies_witness :
  let w := Sample.at_dir "/repo" Sample.tree in
  stdout (world_of (run Sample.quiet_parent w)) =
    ["running build_py";
     "Found compiled library at intel_seed/librdseed.so"].
Proof.
  intros w.
  assert (Hpkg : package_data (setup_call Sample.quiet_parent [])
                   !! "intel_seed" = Some ["librdseed.so"])
    by apply lookup_singleton_eq.
  assert (Hfile : "librdseed.so" ∈ ["librdseed.so"])
    by apply list_elem_of_here.
  rewrite (package_data_is_what_run_verifies Sample.quiet_parent []
             "intel_seed" "librdseed.so" ["librdseed.so"] w
             (printed w "running build_py") Hpkg Hfile eq_refl eq_refl).
  vm_compute. reflexivity.
Defined.

End SetupMore.
